(** * entry_point.c: running bytes of the data section as code

    A shallow embedding of [src/samples/entry_point.c].  The program prints
    two addresses, masks the address of its instruction buffer down to a page
    boundary, asks the kernel to make that page readable and executable and,
    when the kernel agrees, calls the buffer.

    Integers are modelled as [Z] with the wrap-around of the C types written
    out (LP64: [int] has 32 bits, [size_t] and pointers have 64).  The
    operating system, the loader, the processor and the buffering of the
    output stream are an explicit environment; the process is a state-passing
    computation over a [World]. *)

From Stdlib Require Import ZArith Lia List Bool.
From Stdlib.Strings Require Import String Ascii Byte.
Import ListNotations.

Local Open Scope Z_scope.

(** ** C integer types *)

Module CInt.

Definition int_bits : Z := 32.
Definition size_bits : Z := 64.

Definition SIZE_MAX1 : Z := 2 ^ size_bits.

(** A value fits [int] (two's complement, 32 bits). *)
Definition in_int (z : Z) : Prop := - 2 ^ (int_bits - 1) <= z < 2 ^ (int_bits - 1).

(** A value fits [size_t] (and a 64-bit pointer). *)
Definition in_size_t (z : Z) : Prop := 0 <= z < SIZE_MAX1.

(** Conversion of a signed integer to [size_t]: reduction modulo 2^64
    (C11 6.3.1.3p2).  This is what the usual arithmetic conversions apply
    to the [int] operand of [size_t & int]. *)
Definition to_size_t (z : Z) : Z := z mod SIZE_MAX1.

(** [~x] on [int]: every bit of the two's complement representation is
    flipped, which is [-x - 1]; the result always fits [int]. *)
Definition int_not (x : Z) : Z := Z.lnot x.

(** [a & b] on [size_t]. *)
Definition size_and (a b : Z) : Z := Z.land a b.

End CInt.

(** ** The page-boundary computation of [main] *)

Definition PAGE_SIZE : Z := 4096.

(** The constant [0xFFF] of the source, of type [int]. *)
Definition LOW_MASK : Z := 0xFFF.

(** The constant [0x1000], the length handed to [mprotect]. *)
Definition REGION_LEN : Z := 0x1000.

(** [(~0xFFF)] as it reaches the [&]: computed on [int], then converted to
    [size_t]. *)
Definition page_mask : Z := CInt.to_size_t (CInt.int_not LOW_MASK).

(** [size_t region = (size_t) instructions; region = region & (~0xFFF);] *)
Definition page_base (instructions : Z) : Z :=
  let region := CInt.to_size_t instructions in
  let region := CInt.size_and region page_mask in
  region.

(** The length of the instruction sequence held by the buffer. *)
Definition PAYLOAD_LEN : Z := 10.


(** ** String literals of the source

    Rocq strings have no escape sequences, so a literal is kept as the text
    between the quotes of the C source and decoded the way the C lexer does:
    [\x] takes the longest run of hexadecimal digits that follows, [\n] is a
    line feed, any other character stands for itself. *)

Module CLit.

Definition hex_digit (c : ascii) : option Z :=
  let n := Z.of_N (N_of_ascii c) in
  if (48 <=? n) && (n <=? 57) then Some (n - 48)
  else if (97 <=? n) && (n <=? 102) then Some (n - 87)
  else if (65 <=? n) && (n <=? 70) then Some (n - 55)
  else None.

(** Where the lexer is inside a literal: in plain text, just after a
    backslash, or inside a hexadecimal escape whose value so far is [acc]
    ([seen] tells whether a digit was read). *)
Inductive lex_state : Type :=
| Plain
| Escape
| Hex (acc : Z) (seen : bool).

(** The byte of a finished hexadecimal escape; a value that does not fit
    [char] is rejected. *)
Definition hex_byte (acc : Z) : option byte :=
  if acc <? 256 then Byte.of_N (Z.to_N acc) else None.

Definition emit (b : option byte) (rest : option (list byte)) : option (list byte) :=
  match b, rest with
  | Some x, Some xs => Some (x :: xs)
  | _, _ => None
  end.

Definition backslash : ascii := "\"%char.

Fixpoint lex (st : lex_state) (s : string) : option (list byte) :=
  match s with
  | EmptyString =>
      match st with
      | Plain => Some []
      | Escape => None
      | Hex acc seen => if seen then emit (hex_byte acc) (Some []) else None
      end
  | String c rest =>
      match st with
      | Plain =>
          if Ascii.eqb c backslash then lex Escape rest
          else emit (Some (byte_of_ascii c)) (lex Plain rest)
      | Escape =>
          if Ascii.eqb c "x" then lex (Hex 0 false) rest
          else if Ascii.eqb c "n" then emit (Some x0a) (lex Plain rest)
          else None
      | Hex acc seen =>
          match hex_digit c with
          | Some d => lex (Hex (16 * acc + d) true) rest
          | None =>
              if seen then
                emit (hex_byte acc)
                     (if Ascii.eqb c backslash then lex Escape rest
                      else emit (Some (byte_of_ascii c)) (lex Plain rest))
              else None
          end
      end
  end.

(** The characters a literal denotes, without the terminating NUL. *)
Definition chars (src : string) : list byte :=
  match lex Plain src with
  | Some bs => bs
  | None => []
  end.

(** The array object a literal designates: its characters and a NUL. *)
Definition object (src : string) : list byte := chars src ++ [x00].

(** A literal used as text (a [printf] format). *)
Definition text (src : string) : string := string_of_list_byte (chars src).

End CLit.

(** ** Globals of the translation unit *)

(** [const int some_constant = 29;] *)
Definition some_constant : Z := 29.

(** The literal that initialises [const char* instructions]. *)
Definition instructions_literal : string :=
  "\x48\x31\xff\xB8\x3C\x00\x00\x00\x0F\x05".

(** The instruction sequence: the characters of that literal. *)
Definition instructions_bytes : list byte := CLit.chars instructions_literal.

(** What the loader places at the address held by [instructions]. *)
Definition instructions_object : list byte := CLit.object instructions_literal.


(** ** The environment of the process

    Everything [main] calls lives outside the translation unit: the C
    library ([printf], [strerror]), the kernel ([mprotect]) and the processor
    that runs the buffer.  They are modelled here, once, and [main] is written
    against them. *)

(** <sys/mman.h> (Linux). *)
Definition PROT_READ : Z := 1.
Definition PROT_EXEC : Z := 4.

(** <errno.h> (Linux). *)
Definition EACCES : Z := 13.
Definition EINVAL : Z := 22.

(** How a process ends. *)
Inductive Outcome : Type :=
| Exit (status : Z)
| Killed (signal : Z).

(** What a call into foreign code does: come back, or end the process. *)
Inductive Behaviour : Type :=
| Returns
| Ends (o : Outcome).

(** What the process does, in order.  [Printed] carries the text one
    [printf] call hands to the output stream; what of it reaches the file
    descriptor, and when, is the stream's business ([Stream] below). *)
Inductive Event : Type :=
| Printed (line : string)
| Mprotect (addr len prot ret : Z)
| Called (addr : Z).

(** *** The output stream of the C library

    [printf] writes into the buffer of [stdout]; the bytes leave for the file
    descriptor when the buffering mode says so (C11 7.21.3): at once when the
    stream is unbuffered, through the last line feed when it is line buffered
    (a terminal), in whole blocks when the buffer is full (always, and the
    only way when the stream is fully buffered: a pipe or a file).  [exit],
    and so a return from [main], flushes what is left; a process that ends
    any other way loses it. *)

Inductive Buffering : Type :=
| Unbuffered
| LineBuffered
| FullyBuffered.

Record Stream : Type := mkStream {
  pending : string;        (* in the buffer, not yet written *)
  written : string         (* what the file descriptor received *)
}.

Definition stream0 : Stream := {| pending := ""; written := "" |}.

Fixpoint take (n : nat) (s : string) : string :=
  match n, s with
  | S n', String c s' => String c (take n' s')
  | _, _ => EmptyString
  end.

Fixpoint drop (n : nat) (s : string) : string :=
  match n, s with
  | S n', String _ s' => drop n' s'
  | _, _ => s
  end.

(** [s] cut after its last line feed; [None] when it has none. *)
Fixpoint split_last_nl (s : string) : option (string * string) :=
  match s with
  | EmptyString => None
  | String c rest =>
      match split_last_nl rest with
      | Some (through, rest') => Some (String c through, rest')
      | None =>
          if Ascii.eqb c "010" then Some (String c EmptyString, rest) else None
      end
  end.

(** How many of the bytes of [s] leave in full blocks of [cap] bytes; a
    stream without a buffer keeps nothing. *)
Definition whole_blocks (cap : Z) (s : string) : nat :=
  if 0 <? cap then Z.to_nat (cap * (Z.of_nat (String.length s) / cap))
  else String.length s.

(** Writes the full blocks of [s] after [done] and keeps the rest. *)
Definition drain (cap : Z) (done s : string) : Stream :=
  let n := whole_blocks cap s in
  {| pending := drop n s; written := (done ++ take n s)%string |}.

Definition stdio_put (mode : Buffering) (cap : Z) (text : string) (st : Stream) : Stream :=
  let s := (pending st ++ text)%string in
  match mode with
  | Unbuffered => {| pending := ""; written := (written st ++ s)%string |}
  | LineBuffered =>
      match split_last_nl s with
      | Some (through, rest) => drain cap (written st ++ through)%string rest
      | None => drain cap (written st) s
      end
  | FullyBuffered => drain cap (written st) s
  end.

Definition stdio_flush (st : Stream) : Stream :=
  {| pending := ""; written := (written st ++ pending st)%string |}.

Record World : Type := mkWorld {
  trace : list Event;      (* oldest first *)
  errno : Z;
  prot : Z -> Z;           (* protection of the page with this number *)
  mem : Z -> byte;         (* contents of the address space *)
  out : Stream             (* the stream [stdout] *)
}.

Record Env : Type := mkEnv {
  (* loader *)
  main_addr : Z;                              (* address of [main] *)
  instructions : Z;                           (* value of the pointer [instructions] *)
  prot0 : Z -> Z;                             (* protections at start-up *)
  mem0 : Z -> byte;                           (* the rest of the image *)
  (* C library *)
  show_ptr : Z -> string;                     (* rendering of [%p] *)
  strerror : Z -> string;
  stdout_mode : Buffering;                    (* how [stdout] is buffered *)
  bufsiz : Z;                                 (* size of its buffer *)
  (* kernel *)
  mprotect_policy : Z -> Z -> Z -> option Z;  (* [Some e]: refused with errno [e] *)
  (* processor *)
  cpu : (Z -> Z) -> (Z -> byte) -> Z -> Behaviour
    (* running the code at an address, under the page protections and with
       the memory of the moment *)
}.

Definition page_of (addr : Z) : Z := addr / PAGE_SIZE.

(** The pages that meet the byte range [addr, addr + len). *)
Definition in_range (addr len page : Z) : bool :=
  (page_of addr <=? page) && (page <? page_of (addr + len + PAGE_SIZE - 1)).

Definition executable (w : World) (page : Z) : bool :=
  negb (Z.land (prot w page) PROT_EXEC =? 0).

(** The world when [main] is entered: the loader has mapped the image and put
    the literal where [instructions] points. *)
Definition boot (env : Env) : World :=
  {| trace := [];
     errno := 0;
     prot := prot0 env;
     mem := fun a =>
       let off := a - instructions env in
       if (0 <=? off) && (off <? Z.of_nat (List.length instructions_object))
       then nth (Z.to_nat off) instructions_object x00
       else mem0 env a;
     out := stream0 |}.

(** *** Computations of the process *)

Inductive Res (A : Type) : Type :=
| Val (a : A)
| Halt (o : Outcome).
Arguments Val {A} a.
Arguments Halt {A} o.

Definition M (A : Type) : Type := World -> Res A * World.

Definition pure {A} (a : A) : M A := fun w => (Val a, w).

Definition bind {A B} (m : M A) (k : A -> M B) : M B :=
  fun w =>
    match m w with
    | (Val a, w') => k a w'
    | (Halt o, w') => (Halt o, w')
    end.

Declare Scope proc_scope.
Delimit Scope proc_scope with proc.
Notation "x <- m ;; k" := (bind m (fun x => k))
  (at level 61, m at next level, right associativity) : proc_scope.
Notation "m ;; k" := (bind m (fun _ => k))
  (at level 61, right associativity) : proc_scope.

Definition log (e : Event) (w : World) : World :=
  {| trace := trace w ++ [e]; errno := errno w; prot := prot w; mem := mem w;
     out := out w |}.

Definition get_errno : M Z := fun w => (Val (errno w), w).

(** *** printf *)

Inductive Arg : Type :=
| APtr (p : Z)
| AStr (s : string).

(** The two conversions the program uses.  A conversion without a matching
    argument makes the whole call fail. *)
Fixpoint format (sp : Z -> string) (fmt : string) (args : list Arg) : option string :=
  match fmt with
  | EmptyString => Some EmptyString
  | String "%" (String "p" rest) =>
      match args with
      | APtr p :: args' => option_map (append (sp p)) (format sp rest args')
      | _ => None
      end
  | String "%" (String "s" rest) =>
      match args with
      | AStr s :: args' => option_map (append s) (format sp rest args')
      | _ => None
      end
  | String c rest => option_map (String c) (format sp rest args)
  end.

(** The stream takes [text]. *)
Definition put (env : Env) (text : string) (w : World) : World :=
  {| trace := trace w; errno := errno w; prot := prot w; mem := mem w;
     out := stdio_put (stdout_mode env) (bufsiz env) text (out w) |}.

(** [exit]: the stream is flushed. *)
Definition exit_flush (w : World) : World :=
  {| trace := trace w; errno := errno w; prot := prot w; mem := mem w;
     out := stdio_flush (out w) |}.

(** [printf(fmt, args...)]: the formatted text goes to the stream [stdout];
    the result is the number of characters, negative on failure. *)
Definition printf (env : Env) (fmt : string) (args : list Arg) : M Z :=
  fun w =>
    match format (show_ptr env) fmt args with
    | Some line =>
        (Val (Z.of_nat (String.length line)), put env line (log (Printed line) w))
    | None => (Val (-1), w)
    end.

(** *** mprotect(2) *)

(** The kernel refuses an address that is not a multiple of the page size
    with [EINVAL]; otherwise its policy decides. *)
Definition mprotect_check (env : Env) (addr len p : Z) : option Z :=
  if addr mod PAGE_SIZE =? 0 then mprotect_policy env addr len p
  else Some EINVAL.

Definition set_prot (addr len p : Z) (w : World) : World :=
  {| trace := trace w; errno := errno w;
     prot := fun page => if in_range addr len page then p else prot w page;
     mem := mem w; out := out w |}.

Definition set_errno (e : Z) (w : World) : World :=
  {| trace := trace w; errno := e; prot := prot w; mem := mem w; out := out w |}.

Definition mprotect (env : Env) (addr len p : Z) : M Z :=
  fun w =>
    match mprotect_check env addr len p with
    | Some e => (Val (-1), log (Mprotect addr len p (-1)) (set_errno e w))
    | None => (Val 0, log (Mprotect addr len p 0) (set_prot addr len p w))
    end.

(** *** Calling through a pointer to foreign code *)

Definition call (env : Env) (f : Z) : M unit :=
  fun w =>
    let w' := log (Called f) w in
    match cpu env (prot w) (mem w) f with
    | Returns => (Val tt, w')
    | Ends o => (Halt o, w')
    end.

(** ** main *)

Local Open Scope proc_scope.

Definition main (env : Env) : M Z :=
  printf env (CLit.text "main @ %p\n") [APtr (main_addr env)] ;;
  printf env (CLit.text "instructions @ %p\n") [APtr (instructions env)] ;;
  let region := page_base (instructions env) in
  printf env (CLit.text "Page start: %p\n") [APtr region] ;;
  printf env (CLit.text "making instructions executable...\n") [] ;;
  ret <- mprotect env region REGION_LEN (Z.lor PROT_READ PROT_EXEC) ;;
  if negb (ret =? 0) then
    e <- get_errno ;;
    printf env (CLit.text "mprotect failed: error %s\n") [AStr (strerror env e)] ;;
    pure 1
  else
    let f := instructions env in
    printf env (CLit.text "jumping...\n") [] ;;
    call env f ;;
    printf env (CLit.text "after jump\n") [] ;;
    pure 0 (* C99 5.1.2.2.3: reaching the closing brace of main returns 0 *).

Local Close Scope proc_scope.

(** The whole process: [main] run from start-up; a return from [main] is a
    call of [exit] with the value returned, which flushes the stream.  A
    process the buffer ended has no such epilogue. *)
Definition run (env : Env) : Outcome * World :=
  match main env (boot env) with
  | (Val status, w) => (Exit status, exit_flush w)
  | (Halt o, w) => (o, w)
  end.

(** *** Observations on a run *)

(** The texts handed to [printf], one per call. *)
Definition printed (w : World) : list string :=
  flat_map (fun e => match e with Printed l => [l] | _ => [] end) (trace w).

(** Standard output: the bytes the file descriptor received. *)
Definition stdout (w : World) : string := written (out w).

Definition invocations (w : World) : list Z :=
  flat_map (fun e => match e with Called a => [a] | _ => [] end) (trace w).

Definition mprotect_calls (w : World) : list (Z * Z * Z * Z) :=
  flat_map (fun e => match e with
                     | Mprotect a l p r => [(a, l, p, r)]
                     | _ => []
                     end) (trace w).

(** The protection changes the kernel granted. *)
Definition prot_changes (w : World) : list (Z * Z * Z) :=
  flat_map (fun e => match e with
                     | Mprotect a l p 0 => [(a, l, p)]
                     | _ => []
                     end) (trace w).

(** The bytes of the buffer as they are in memory. *)
Definition buffer_at (w : World) (addr : Z) (n : nat) : list byte :=
  map (fun i => mem w (addr + Z.of_nat i)) (seq 0 n).

(** The lines of the program's output, as the formats and their arguments
    determine them. *)
Definition nl : string := String "010" EmptyString.

Definition line_main (env : Env) : string :=
  "main @ " ++ show_ptr env (main_addr env) ++ nl.
Definition line_instructions (env : Env) : string :=
  "instructions @ " ++ show_ptr env (instructions env) ++ nl.
Definition line_page (env : Env) : string :=
  "Page start: " ++ show_ptr env (page_base (instructions env)) ++ nl.
Definition line_making : string := "making instructions executable..." ++ nl.
Definition line_failed (env : Env) (e : Z) : string :=
  "mprotect failed: error " ++ strerror env e ++ nl.
Definition line_jumping : string := "jumping..." ++ nl.
Definition line_after : string := "after jump" ++ nl.

(** The arguments of the program's one [mprotect] call. *)
Definition requested_prot : Z := Z.lor PROT_READ PROT_EXEC.

Definition kernel_verdict (env : Env) : option Z :=
  mprotect_check env (page_base (instructions env)) REGION_LEN requested_prot.

(** The protection-change call of the run returned [r]. *)
Definition mprotect_returned (env : Env) (r : Z) : Prop :=
  exists a l p, In (Mprotect a l p r) (trace (snd (run env))).

(** The events every run starts with. *)
Definition prologue (env : Env) : list Event :=
  [Printed (line_main env); Printed (line_instructions env);
   Printed (line_page env); Printed line_making].

(** The page protections once the kernel has granted the request. *)
Definition granted_prot (env : Env) : Z -> Z :=
  fun page =>
    if in_range (page_base (instructions env)) REGION_LEN page
    then requested_prot else prot0 env page.

(** What the processor does with the buffer in this environment, at the
    moment [main] calls it. *)
Definition payload_behaviour (env : Env) : Behaviour :=
  cpu env (granted_prot env) (mem (boot env)) (instructions env).

(** The stream after it took [texts], in order. *)
Definition puts (env : Env) (texts : list string) (st : Stream) : Stream :=
  fold_left (fun st text => stdio_put (stdout_mode env) (bufsiz env) text st)
            texts st.

(** The texts of a list of events. *)
Definition texts_of (events : list Event) : list string :=
  flat_map (fun e => match e with Printed l => [l] | _ => [] end) events.

(** The world [main] is in when the kernel has granted the request; [tail]
    is what follows the call. *)
Definition granted_world (env : Env) (tail : list Event) : World :=
  {| trace := prologue env ++
              [Mprotect (page_base (instructions env)) REGION_LEN requested_prot 0;
               Printed line_jumping; Called (instructions env)] ++ tail;
     errno := 0;
     prot := granted_prot env;
     mem := mem (boot env);
     out := puts env (texts_of (prologue env ++ Printed line_jumping :: tail))
                 stream0 |}.

(** The world [main] returns in when the kernel has refused with [e]. *)
Definition denied_world (env : Env) (e : Z) : World :=
  {| trace := prologue env ++
              [Mprotect (page_base (instructions env)) REGION_LEN
                        requested_prot (-1);
               Printed (line_failed env e)];
     errno := e;
     prot := prot0 env;
     mem := mem (boot env);
     out := puts env (texts_of (prologue env ++ [Printed (line_failed env e)]))
                 stream0 |}.

(** The five lines of a run the kernel granted, as one stream of bytes. *)
Definition five_lines (env : Env) : string :=
  line_main env ++ line_instructions env ++ line_page env ++ line_making
  ++ line_jumping.

(** Memory [m] holds the instruction sequence at [f]. *)
Definition holds_payload (m : Z -> byte) (f : Z) : Prop :=
  forall k, (k < List.length instructions_bytes)%nat ->
            m (f + Z.of_nat k) = nth k instructions_bytes x00.

(** ** A processor for the payload

    The fragment of x86-64 the ten bytes use (and [ret]), enough to run the
    buffer instead of assuming what it does.  An instruction is fetched only
    from executable pages: a byte of it in a page without [PROT_EXEC] is a
    page fault, which ends the process with [SIGSEGV]. *)

Module X86.

Definition SYS_exit : Z := 60.
Definition SIGILL : Z := 4.
Definition SIGSEGV : Z := 11.

Inductive instr : Type :=
| XorRR (dst src : Z)          (* REX.W 31 /r, register form *)
| MovImm32 (dst imm : Z)       (* B8+rd id *)
| Syscall                      (* 0F 05 *)
| Ret.                         (* C3 *)

Definition fetch (m : Z -> byte) (a : Z) : Z := Z.of_N (Byte.to_N (m a)).

Definition le32 (m : Z -> byte) (a : Z) : Z :=
  fetch m a + 2 ^ 8 * fetch m (a + 1) + 2 ^ 16 * fetch m (a + 2)
  + 2 ^ 24 * fetch m (a + 3).

(** The instruction at [pc] and its length. *)
Definition decode (m : Z -> byte) (pc : Z) : option (instr * Z) :=
  let b0 := fetch m pc in
  if b0 =? 0x48 then
    if fetch m (pc + 1) =? 0x31 then
      let modrm := fetch m (pc + 2) in
      if Z.shiftr modrm 6 =? 3
      then Some (XorRR (Z.land modrm 7) (Z.land (Z.shiftr modrm 3) 7), 3)
      else None
    else None
  else if (0xB8 <=? b0) && (b0 <=? 0xBF) then
    Some (MovImm32 (b0 - 0xB8) (le32 m (pc + 1)), 5)
  else if b0 =? 0x0F then
    if fetch m (pc + 1) =? 0x05 then Some (Syscall, 2) else None
  else if b0 =? 0xC3 then Some (Ret, 1)
  else None.

(** Register numbers. *)
Definition RAX : Z := 0.
Definition RDI : Z := 7.

Definition regs : Type := Z -> Z.

Definition set (r : regs) (i v : Z) : regs :=
  fun j => if j =? i then v else r j.

(** The byte at [a] may be fetched as code under the protections [p]. *)
Definition fetchable (p : Z -> Z) (a : Z) : bool :=
  negb (Z.land (p (page_of a)) PROT_EXEC =? 0).

(** What one instruction does to the registers, or how it ends the run. *)
Definition step (i : instr) (r : regs) : regs + option Behaviour :=
  match i with
  | XorRR d s => inl (set r d (Z.lxor (r d) (r s)))
  | MovImm32 d imm => inl (set r d imm)
  | Syscall =>
      inr (if r RAX =? SYS_exit then Some (Ends (Exit (Z.land (r RDI) 0xFF)))
           else None)
  | Ret => inr (Some Returns)
  end.

(** Runs from [pc]; [None] when the code leaves the fragment or the fuel
    runs out.  An instruction has at most fifteen bytes, so it lies in the
    pages of its first and of its last byte. *)
Fixpoint exec (fuel : nat) (p : Z -> Z) (m : Z -> byte) (r : regs) (pc : Z) : option Behaviour :=
  match fuel with
  | O => None
  | S fuel' =>
      if negb (fetchable p pc) then Some (Ends (Killed SIGSEGV))
      else
        match decode m pc with
        | None => None
        | Some (i, n) =>
            if negb (fetchable p (pc + n - 1)) then Some (Ends (Killed SIGSEGV))
            else
              match step i r with
              | inl r' => exec fuel' p m r' (pc + n)
              | inr b => b
              end
        end
  end.

Definition run (r : regs) (p : Z -> Z) (m : Z -> byte) (f : Z) : Behaviour :=
  match exec 16 p m r f with
  | Some b => b
  | None => Ends (Killed SIGILL)
  end.

End X86.

(** ** Concrete environments *)

Module Sample.

Definition hex_char (d : Z) : ascii :=
  ascii_of_N (Z.to_N (if d <? 10 then 48 + d else 87 + d)).

Fixpoint hex_digits (fuel : nat) (z : Z) (acc : string) : string :=
  match fuel with
  | O => acc
  | S fuel' =>
      if z =? 0 then acc
      else hex_digits fuel' (z / 16) (String (hex_char (z mod 16)) acc)
  end.

(** [%p] as glibc prints it. *)
Definition glibc_ptr (p : Z) : string :=
  if p =? 0 then "(nil)" else "0x" ++ hex_digits 16 p "".

Definition glibc_strerror (e : Z) : string :=
  if e =? EACCES then "Permission denied"
  else if e =? EINVAL then "Invalid argument"
  else "Unknown error".

(** A kernel that grants every request, an image whose data is read-only,
    the x86-64 fragment as the processor, and a terminal as standard
    output. *)
Definition granting : Env :=
  {| main_addr := 0x401136;
     instructions := 0x402004;
     prot0 := fun _ => PROT_READ;
     mem0 := fun _ => x00;
     show_ptr := glibc_ptr;
     strerror := glibc_strerror;
     stdout_mode := LineBuffered;
     bufsiz := 1024;
     mprotect_policy := fun _ _ _ => None;
     cpu := X86.run (fun _ => 0) |}.

(** The same image under a kernel that forbids executable data. *)
Definition denying : Env :=
  {| main_addr := 0x401136;
     instructions := 0x402004;
     prot0 := fun _ => PROT_READ;
     mem0 := fun _ => x00;
     show_ptr := glibc_ptr;
     strerror := glibc_strerror;
     stdout_mode := LineBuffered;
     bufsiz := 1024;
     mprotect_policy := fun _ _ _ => Some EACCES;
     cpu := X86.run (fun _ => 0) |}.

(** An environment whose processor comes back from the buffer. *)
Definition returning : Env :=
  {| main_addr := 0x401136;
     instructions := 0x402004;
     prot0 := fun _ => PROT_READ;
     mem0 := fun _ => x00;
     show_ptr := glibc_ptr;
     strerror := glibc_strerror;
     stdout_mode := LineBuffered;
     bufsiz := 1024;
     mprotect_policy := fun _ _ _ => None;
     cpu := fun _ _ _ => Returns |}.

(** The literal placed ten bytes from the end of a page. *)
Definition straddling_addr : Z := 0x402FFA.

End Sample.

(** ** Further observations and environments *)

(** <sys/mman.h> (Linux). *)
Definition PROT_WRITE : Z := 2.

Definition writable (w : World) (page : Z) : bool :=
  negb (Z.land (prot w page) PROT_WRITE =? 0).

(** The text ends with a line feed, so a line-buffered stream passes it on
    at once. *)
Fixpoint ends_with_nl (s : string) : bool :=
  match s with
  | EmptyString => false
  | String c EmptyString => Ascii.eqb c "010"
  | String _ rest => ends_with_nl rest
  end.

Module Edge.

Definition SIGSEGV : Z := 11.

(** The literal loaded six bytes before the end of a page, under a kernel
    that grants the request. *)
Definition straddling : Env :=
  {| main_addr := 0x401136;
     instructions := Sample.straddling_addr;
     prot0 := fun _ => PROT_READ;
     mem0 := fun _ => x00;
     show_ptr := Sample.glibc_ptr;
     strerror := Sample.glibc_strerror;
     stdout_mode := LineBuffered;
     bufsiz := 1024;
     mprotect_policy := fun _ _ _ => None;
     cpu := X86.run (fun _ => 0) |}.

(** A processor that faults on the buffer. *)
Definition faulting : Env :=
  {| main_addr := 0x401136;
     instructions := 0x402004;
     prot0 := fun _ => PROT_READ;
     mem0 := fun _ => x00;
     show_ptr := Sample.glibc_ptr;
     strerror := Sample.glibc_strerror;
     stdout_mode := LineBuffered;
     bufsiz := 1024;
     mprotect_policy := fun _ _ _ => None;
     cpu := fun _ _ _ => Ends (Killed SIGSEGV) |}.


End Edge.

(** * Properties *)

(** ** Page arithmetic *)

Section PageArithmetic.

Lemma low_mask_ones : LOW_MASK = Z.ones 12.
Proof. reflexivity. Qed.

(** [~0xFFF] is the [int] -4096: no overflow, nothing implementation
    defined before the conversion. *)
Lemma low_mask_not_in_int :
  CInt.int_not LOW_MASK = -4096 /\ CInt.in_int (CInt.int_not LOW_MASK).
Proof. split; [reflexivity | unfold CInt.in_int; cbn; lia]. Qed.

(** The conversion to [size_t] extends the sign: the mask is
    [0xFFFFFFFFFFFFF000]. *)
Lemma page_mask_value : page_mask = CInt.SIZE_MAX1 - PAGE_SIZE.
Proof. reflexivity. Qed.

(** Bit [i] of the mask is set exactly for 12 <= i < 64. *)
Lemma page_mask_bits (i : Z) :
  0 <= i -> Z.testbit page_mask i = (12 <=? i) && (i <? 64).
Proof.
  intros Hi.
  unfold page_mask, CInt.to_size_t, CInt.SIZE_MAX1, CInt.size_bits, CInt.int_not.
  rewrite Z.testbit_mod_pow2 by lia.
  rewrite Z.lnot_spec by lia.
  rewrite low_mask_ones, Z.testbit_ones by lia.
  destruct (i <? 64) eqn:E1, (i <? 12) eqn:E2, (12 <=? i) eqn:E3,
    (0 <=? i) eqn:E4; simpl; try reflexivity; lia.
Qed.

Lemma size_t_bits_high (a i : Z) :
  64 <= i -> Z.testbit (CInt.to_size_t a) i = false.
Proof.
  intros Hi. unfold CInt.to_size_t, CInt.SIZE_MAX1, CInt.size_bits.
  rewrite Z.testbit_mod_pow2 by lia.
  destruct (i <? 64) eqn:E; [lia | reflexivity].
Qed.

Lemma page_base_bits (a i : Z) :
  0 <= i ->
  Z.testbit (page_base a) i = Z.testbit (CInt.to_size_t a) i && (12 <=? i).
Proof.
  intros Hi. unfold page_base, CInt.size_and.
  rewrite Z.land_spec, page_mask_bits by lia.
  destruct (i <? 64) eqn:E.
  - now rewrite andb_true_r.
  - rewrite size_t_bits_high by lia. reflexivity.
Qed.

(** The mask rounds down to a multiple of the page size. *)
Lemma page_base_div (a : Z) :
  page_base a = PAGE_SIZE * (CInt.to_size_t a / PAGE_SIZE).
Proof.
  change PAGE_SIZE with (2 ^ 12).
  rewrite Z.mul_comm, <- Z.shiftr_div_pow2, <- Z.shiftl_mul_pow2 by lia.
  apply Z.bits_inj'. intros i Hi.
  rewrite page_base_bits by lia.
  destruct (12 <=? i) eqn:E.
  - rewrite Z.shiftl_spec, Z.shiftr_spec by lia.
    rewrite andb_true_r. f_equal. lia.
  - rewrite Z.shiftl_spec_low by lia. now rewrite andb_false_r.
Qed.

Lemma to_size_t_id (a : Z) : CInt.in_size_t a -> CInt.to_size_t a = a.
Proof. intros H. apply Z.mod_small. exact H. Qed.

Lemma page_base_aligned (a : Z) : page_base a mod PAGE_SIZE = 0.
Proof.
  rewrite page_base_div, Z.mul_comm. apply Z.mod_mul. discriminate.
Qed.

Lemma page_base_sub (a : Z) :
  CInt.in_size_t a -> page_base a = a - a mod PAGE_SIZE.
Proof.
  intros H. rewrite page_base_div, to_size_t_id by exact H.
  pose proof (Z.div_mod a PAGE_SIZE ltac:(discriminate)). lia.
Qed.

Lemma page_of_base (a : Z) :
  CInt.in_size_t a -> page_of (page_base a) = page_of a.
Proof.
  intros H. unfold page_of. rewrite page_base_div, to_size_t_id by exact H.
  rewrite Z.mul_comm. apply Z.div_mul. discriminate.
Qed.

(** The request covers one page: the one the address lies in. *)
Lemma in_range_page (a page : Z) :
  CInt.in_size_t a ->
  in_range (page_base a) REGION_LEN page = (page =? page_of a).
Proof.
  intros Ha. unfold in_range.
  rewrite (page_of_base a Ha).
  assert (E : page_of (page_base a + REGION_LEN + PAGE_SIZE - 1) = page_of a + 1).
  { unfold page_of. rewrite page_base_div, to_size_t_id by exact Ha.
    change REGION_LEN with PAGE_SIZE.
    replace (PAGE_SIZE * (a / PAGE_SIZE) + PAGE_SIZE + PAGE_SIZE - 1)
      with ((a / PAGE_SIZE + 1) * PAGE_SIZE + (PAGE_SIZE - 1)) by lia.
    rewrite Z.div_add_l by discriminate.
    change ((PAGE_SIZE - 1) / PAGE_SIZE) with 0. lia. }
  rewrite E.
  destruct (page =? page_of a) eqn:Q, (page_of a <=? page) eqn:Q1,
    (page <? page_of a + 1) eqn:Q2; simpl; try reflexivity; lia.
Qed.

End PageArithmetic.

(** C1.  For every address [A] the masked value [P] is the base of the page
    that contains [A]: [P <= A < P + 4096], [P] is a multiple of 4096, the low
    twelve bits of [P] are clear and every bit from the twelfth up is the bit
    of [A]. *)
Theorem page_base_correct (A : Z) :
  CInt.in_size_t A ->
  let P := page_base A in
  P <= A < P + PAGE_SIZE /\ P mod PAGE_SIZE = 0 /\
  (forall i, 0 <= i < 12 -> Z.testbit P i = false) /\
  (forall i, 12 <= i -> Z.testbit P i = Z.testbit A i).
Proof.
  intros HA P. subst P.
  pose proof (Z.mod_pos_bound A PAGE_SIZE ltac:(reflexivity)) as Hm.
  repeat split.
  - rewrite page_base_sub by exact HA. lia.
  - rewrite page_base_sub by exact HA. lia.
  - apply page_base_aligned.
  - intros i Hi. rewrite page_base_bits by lia.
    destruct (12 <=? i) eqn:E; [lia | apply andb_false_r].
  - intros i Hi. rewrite page_base_bits, to_size_t_id by (lia || exact HA).
    destruct (12 <=? i) eqn:E; [apply andb_true_r | lia].
Qed.

Lemma page_base_correct_witness :
  CInt.in_size_t 0x402004 /\
  (page_base 0x402004 <= 0x402004 < page_base 0x402004 + PAGE_SIZE /\
   page_base 0x402004 mod PAGE_SIZE = 0 /\
   (forall i, 0 <= i < 12 -> Z.testbit (page_base 0x402004) i = false) /\
   (forall i, 12 <= i -> Z.testbit (page_base 0x402004) i = Z.testbit 0x402004 i)).
Proof.
  assert (H : CInt.in_size_t 0x402004).
  { unfold CInt.in_size_t. vm_compute. split; [discriminate | reflexivity]. }
  split; [exact H | exact (page_base_correct 0x402004 H)].
Defined.

(** C7, as amended.  The page base never exceeds the address, and the one
    page whose protection is changed contains all ten bytes exactly when the
    buffer starts at most 4086 bytes into its page. *)
Theorem region_covers_iff (A : Z) :
  CInt.in_size_t A ->
  page_base A <= A /\
  (A + PAYLOAD_LEN <= page_base A + REGION_LEN
   <-> A mod PAGE_SIZE <= PAGE_SIZE - PAYLOAD_LEN).
Proof.
  intros HA. rewrite page_base_sub by exact HA.
  pose proof (Z.mod_pos_bound A PAGE_SIZE ltac:(reflexivity)) as Hm.
  unfold PAYLOAD_LEN, REGION_LEN, PAGE_SIZE in *. lia.
Qed.

Lemma region_covers_iff_witness :
  CInt.in_size_t 0x402004 /\
  page_base 0x402004 <= 0x402004 /\
  (0x402004 + PAYLOAD_LEN <= page_base 0x402004 + REGION_LEN
   <-> 0x402004 mod PAGE_SIZE <= PAGE_SIZE - PAYLOAD_LEN).
Proof.
  assert (H : CInt.in_size_t 0x402004).
  { unfold CInt.in_size_t. vm_compute. split; [discriminate | reflexivity]. }
  split; [exact H | exact (region_covers_iff 0x402004 H)].
Defined.

(** C7, as stated, fails: a buffer that starts six bytes before the end of a
    page runs four bytes into the next one, which the request leaves alone. *)
Lemma straddling_buffer_not_covered :
  CInt.in_size_t Sample.straddling_addr /\
  ~ (page_base Sample.straddling_addr <= Sample.straddling_addr /\
     Sample.straddling_addr + PAYLOAD_LEN
       <= page_base Sample.straddling_addr + REGION_LEN).
Proof.
  split.
  - unfold CInt.in_size_t. vm_compute. split; [discriminate | reflexivity].
  - vm_compute. intros [_ H]. apply H. reflexivity.
Qed.

(** ** The text of the output *)

Section Formats.

Variable sp : Z -> string.

Lemma format_main (a : Z) :
  format sp (CLit.text "main @ %p\n") [APtr a]
  = Some ("main @ " ++ sp a ++ nl)%string.
Proof. reflexivity. Qed.

Lemma format_instructions (a : Z) :
  format sp (CLit.text "instructions @ %p\n") [APtr a]
  = Some ("instructions @ " ++ sp a ++ nl)%string.
Proof. reflexivity. Qed.

Lemma format_page (a : Z) :
  format sp (CLit.text "Page start: %p\n") [APtr a]
  = Some ("Page start: " ++ sp a ++ nl)%string.
Proof. reflexivity. Qed.

Lemma format_making :
  format sp (CLit.text "making instructions executable...\n") []
  = Some line_making.
Proof. reflexivity. Qed.

Lemma format_failed (s : string) :
  format sp (CLit.text "mprotect failed: error %s\n") [AStr s]
  = Some ("mprotect failed: error " ++ s ++ nl)%string.
Proof. reflexivity. Qed.

Lemma format_jumping :
  format sp (CLit.text "jumping...\n") [] = Some line_jumping.
Proof. reflexivity. Qed.

Lemma format_after :
  format sp (CLit.text "after jump\n") [] = Some line_after.
Proof. reflexivity. Qed.

End Formats.

Lemma printf_line env fmt args line w :
  format (show_ptr env) fmt args = Some line ->
  printf env fmt args w
  = (Val (Z.of_nat (String.length line)), put env line (log (Printed line) w)).
Proof. intros H. unfold printf. now rewrite H. Qed.

(** Runs the next [printf] of a sequence. *)
Ltac step_printf :=
  unfold bind at 1;
  first [ erewrite printf_line by apply format_main
        | erewrite printf_line by apply format_instructions
        | erewrite printf_line by apply format_page
        | erewrite printf_line by apply format_making
        | erewrite printf_line by apply format_failed
        | erewrite printf_line by apply format_jumping
        | erewrite printf_line by apply format_after ].

(** ** The output stream *)

Section StreamFacts.

Local Open Scope string_scope.

Lemma append_empty_r (s : string) : s ++ "" = s.
Proof. induction s as [|c s IH]; [reflexivity | cbn; now rewrite IH]. Qed.

Lemma append_assoc3 (a b c : string) : (a ++ b) ++ c = a ++ b ++ c.
Proof. induction a as [|x a IH]; [reflexivity | cbn; now rewrite IH]. Qed.


Lemma take_drop (n : nat) (s : string) : take n s ++ drop n s = s.
Proof.
  revert s. induction n as [|n IH]; intros s; [reflexivity|].
  destruct s as [|c s]; [reflexivity|]. cbn. now rewrite IH.
Qed.

Lemma split_last_nl_whole (s a b : string) :
  split_last_nl s = Some (a, b) -> a ++ b = s.
Proof.
  revert a b. induction s as [|c s IH]; intros a b H; [discriminate H|].
  cbn in H. destruct (split_last_nl s) as [[a' b']|].
  - injection H as <- <-. cbn. now rewrite (IH a' b' eq_refl).
  - destruct (Ascii.eqb c "010"); [|discriminate H].
    injection H as <- <-. reflexivity.
Qed.


(** Whatever the mode, no byte is lost or reordered between the buffer and
    the descriptor. *)
Lemma drain_stream (cap : Z) (done s : string) :
  written (drain cap done s) ++ pending (drain cap done s) = done ++ s.
Proof.
  unfold drain. cbn [written pending].
  now rewrite append_assoc3, take_drop.
Qed.

Lemma stdio_put_stream mode cap text st :
  written (stdio_put mode cap text st) ++ pending (stdio_put mode cap text st)
  = (written st ++ pending st) ++ text.
Proof.
  unfold stdio_put. destruct mode.
  - cbn [written pending]. now rewrite append_empty_r, append_assoc3.
  - destruct (split_last_nl (pending st ++ text)) as [[a b]|] eqn:E.
    + rewrite drain_stream, !append_assoc3.
      now rewrite (split_last_nl_whole _ _ _ E).
    + now rewrite drain_stream, append_assoc3.
  - now rewrite drain_stream, append_assoc3.
Qed.

Lemma puts_cons env t ts st :
  puts env (t :: ts) st
  = puts env ts (stdio_put (stdout_mode env) (bufsiz env) t st).
Proof. reflexivity. Qed.

(** The texts of a list, one after the other. *)
Lemma puts_stream env texts st :
  written (puts env texts st) ++ pending (puts env texts st)
  = (written st ++ pending st) ++ fold_right append "" texts.
Proof.
  revert st. induction texts as [|t ts IH]; intros st.
  - cbn. now rewrite append_empty_r.
  - rewrite puts_cons, IH, stdio_put_stream. cbn [fold_right].
    now rewrite append_assoc3.
Qed.

(** After [exit] the descriptor has received every text in order. *)
Lemma flushed_stream env texts :
  written (stdio_flush (puts env texts stream0)) = fold_right append "" texts.
Proof.
  cbn [stdio_flush written]. now rewrite puts_stream.
Qed.




End StreamFacts.

(** ** The two paths of a run *)

Lemma run_denied env e :
  kernel_verdict env = Some e ->
  run env = (Exit 1, exit_flush (denied_world env e)).
Proof.
  unfold kernel_verdict, requested_prot. intros H.
  unfold run, main.
  do 4 step_printf.
  unfold bind at 1. unfold mprotect. rewrite H.
  cbn [negb Z.eqb Z.opp].
  unfold bind at 1. unfold get_errno.
  step_printf. reflexivity.
Qed.

Lemma run_granted env :
  kernel_verdict env = None ->
  run env =
    match payload_behaviour env with
    | Returns => (Exit 0, exit_flush (granted_world env [Printed line_after]))
    | Ends o => (o, granted_world env [])
    end.
Proof.
  unfold kernel_verdict, requested_prot, payload_behaviour. intros H.
  unfold run, main.
  do 4 step_printf.
  unfold bind at 1. unfold mprotect. rewrite H.
  cbn [negb Z.eqb].
  step_printf.
  unfold bind at 1. unfold call.
  cbn [mem prot put log set_prot].
  change (fun page : Z =>
            if in_range (page_base (instructions env)) REGION_LEN page
            then Z.lor PROT_READ PROT_EXEC else prot (boot env) page)
    with (granted_prot env).
  destruct (cpu env (granted_prot env) (mem (boot env)) (instructions env))
    as [|o].
  - step_printf. reflexivity.
  - reflexivity.
Qed.

(** Standard output of the three ends of a run. *)
Lemma stdout_denied env e :
  stdout (exit_flush (denied_world env e))
  = (line_main env ++ line_instructions env ++ line_page env ++ line_making
     ++ line_failed env e)%string.
Proof.
  unfold stdout. cbn [exit_flush out denied_world].
  rewrite flushed_stream. cbn [texts_of prologue flat_map app fold_right].
  now rewrite append_empty_r.
Qed.

Lemma stdout_returned env :
  stdout (exit_flush (granted_world env [Printed line_after]))
  = (five_lines env ++ line_after)%string.
Proof.
  unfold stdout, five_lines. cbn [exit_flush out granted_world].
  rewrite flushed_stream. cbn [texts_of prologue flat_map app fold_right].
  now rewrite append_empty_r, !append_assoc3.
Qed.

(** Decides a membership in a list of events that is written out. *)
Ltac scan_trace H :=
  cbn in H;
  repeat (destruct H as [H|H]; try discriminate H; try contradiction).

(** The one [mprotect] of a run returns 0 when the kernel grants and -1 when
    it refuses. *)
Lemma mprotect_returned_inv env r :
  mprotect_returned env r ->
  (r = 0 /\ kernel_verdict env = None) \/
  (r = -1 /\ exists e, kernel_verdict env = Some e).
Proof.
  intros (a & l & p & Hin).
  destruct (kernel_verdict env) as [e|] eqn:V.
  - right. rewrite (run_denied env e V) in Hin. scan_trace Hin.
    injection Hin as _ _ _ <-. split; [reflexivity | now exists e].
  - left. rewrite (run_granted env V) in Hin.
    destruct (payload_behaviour env); scan_trace Hin;
      injection Hin as _ _ _ <-; split; reflexivity.
Qed.

Lemma failed_verdict env r :
  mprotect_returned env r -> r <> 0 -> exists e, kernel_verdict env = Some e.
Proof.
  intros H Hr. destruct (mprotect_returned_inv env r H) as [[-> _]|[_ He]].
  - contradiction.
  - exact He.
Qed.

Lemma succeeded_verdict env :
  mprotect_returned env 0 -> kernel_verdict env = None.
Proof.
  intros H. destruct (mprotect_returned_inv env 0 H) as [[_ V]|[E _]].
  - exact V.
  - discriminate E.
Qed.

Lemma called_verdict env f :
  In (Called f) (trace (snd (run env))) -> kernel_verdict env = None.
Proof.
  intros Hin. destruct (kernel_verdict env) as [e|] eqn:V; [|reflexivity].
  rewrite (run_denied env e V) in Hin. scan_trace Hin.
Qed.

(** The sample kernels answer as their names say. *)
Lemma denying_returns : mprotect_returned Sample.denying (-1).
Proof.
  exists 0x402000, 0x1000, 5. vm_compute.
  right. right. right. right. left. reflexivity.
Defined.

Lemma granting_returns : mprotect_returned Sample.granting 0.
Proof.
  exists 0x402000, 0x1000, 5. vm_compute.
  right. right. right. right. left. reflexivity.
Defined.

(** ** The failure path *)

(** C2.  When the protection-change call returns a nonzero result the
    process exits with status 1, the last text it handed to [printf] is the
    error line with the description of the errno the call left, standard
    output has received the four opening lines and that line (whatever the
    buffering: [main] returns, so the stream is flushed), and the buffer was
    never invoked. *)
Theorem failure_exits_without_invoking env r :
  mprotect_returned env r -> r <> 0 ->
  let w := snd (run env) in
  fst (run env) = Exit 1 /\
  last (printed w) EmptyString = line_failed env (errno w) /\
  stdout w = (line_main env ++ line_instructions env ++ line_page env
              ++ line_making ++ line_failed env (errno w))%string /\
  invocations w = [].
Proof.
  intros H Hr w. subst w. destruct (failed_verdict env r H Hr) as [e V].
  rewrite (run_denied env e V). cbn [fst snd].
  split; [reflexivity|]. split; [reflexivity|].
  split; [apply stdout_denied | reflexivity].
Qed.

Lemma failure_exits_without_invoking_witness :
  mprotect_returned Sample.denying (-1) /\ -1 <> 0 /\
  (let w := snd (run Sample.denying) in
   fst (run Sample.denying) = Exit 1 /\
   last (printed w) EmptyString = line_failed Sample.denying (errno w) /\
   stdout w = (line_main Sample.denying ++ line_instructions Sample.denying
               ++ line_page Sample.denying ++ line_making
               ++ line_failed Sample.denying (errno w))%string /\
   invocations w = []).
Proof.
  split; [exact denying_returns|]. split; [discriminate|].
  apply (failure_exits_without_invoking Sample.denying (-1) denying_returns).
  discriminate.
Defined.

(** C3.  When the protection-change call fails, the line "jumping..." is not
    among the texts handed to [printf]. *)
Theorem failure_never_prints_jumping env r :
  mprotect_returned env r -> r <> 0 ->
  ~ In line_jumping (printed (snd (run env))).
Proof.
  intros H Hr. destruct (failed_verdict env r H Hr) as [e V].
  rewrite (run_denied env e V). cbn.
  intros Hin.
  repeat (destruct Hin as [Hin|Hin]; [discriminate Hin|]).
  exact Hin.
Qed.

Lemma failure_never_prints_jumping_witness :
  mprotect_returned Sample.denying (-1) /\ -1 <> 0 /\
  ~ In line_jumping (printed (snd (run Sample.denying))).
Proof.
  split; [exact denying_returns|]. split; [discriminate|].
  apply (failure_never_prints_jumping Sample.denying (-1) denying_returns).
  discriminate.
Defined.

(** ** The success path *)

(** C4.  When the protection-change call returns 0 the buffer is invoked
    exactly once, at the address [instructions] holds. *)
Theorem success_invokes_once env :
  mprotect_returned env 0 ->
  invocations (snd (run env)) = [instructions env].
Proof.
  intros H. rewrite (run_granted env (succeeded_verdict env H)).
  destruct (payload_behaviour env); reflexivity.
Qed.

Lemma success_invokes_once_witness :
  mprotect_returned Sample.granting 0 /\
  invocations (snd (run Sample.granting)) = [instructions Sample.granting].
Proof.
  split; [exact granting_returns|].
  exact (success_invokes_once Sample.granting granting_returns).
Defined.

Lemma ends_with_nl_append (p q : string) :
  ends_with_nl q = true -> ends_with_nl (p ++ q) = true.
Proof.
  intros Hq. induction p as [|c p IH]; [exact Hq|].
  cbn [append]. destruct (p ++ q)%string as [|c' s'] eqn:E.
  - discriminate IH.
  - exact IH.
Qed.

Lemma ends_with_nl_line (p x : string) : ends_with_nl (p ++ x ++ nl) = true.
Proof.
  apply ends_with_nl_append, ends_with_nl_append. reflexivity.
Qed.









(** ** The buffer *)

Lemma boot_mem_at env (k : Z) :
  0 <= k < Z.of_nat (List.length instructions_object) ->
  mem (boot env) (instructions env + k)
  = nth (Z.to_nat k) instructions_object x00.
Proof.
  intros Hk. cbn [mem boot].
  replace (instructions env + k - instructions env) with k by lia.
  destruct (0 <=? k) eqn:E1; [|lia].
  destruct (k <? Z.of_nat (List.length instructions_object)) eqn:E2; [|lia].
  reflexivity.
Qed.

(** The loader's copy of the literal, terminating NUL included. *)
Lemma boot_buffer env :
  buffer_at (boot env) (instructions env) 11 = instructions_object.
Proof.
  unfold buffer_at. cbn [seq map].
  rewrite !boot_mem_at by (cbn; lia). reflexivity.
Qed.

(** C6.  The literal denotes the ten bytes 48 31 FF B8 3C 00 00 00 0F 05, in
    that order, and these are the ten bytes found where [instructions] points
    when [main] starts. *)
Theorem instructions_are_documented_bytes :
  instructions_bytes = [x48; x31; xff; xb8; x3c; x00; x00; x00; x0f; x05] /\
  List.length instructions_bytes = 10%nat /\
  forall env, buffer_at (boot env) (instructions env) 10 = instructions_bytes.
Proof.
  split; [reflexivity|]. split; [reflexivity|].
  intros env. unfold buffer_at. cbn [seq map].
  rewrite !boot_mem_at by (cbn; lia). reflexivity.
Qed.

(** C9.  No run changes the contents of memory, so the buffer holds at the
    end what the loader put there; the kernel grants at most one change of
    protection per run.  When the call succeeds there is exactly one: the
    page of the buffer, not executable when [main] starts, gets a new
    protection, read+execute, and every other page keeps its own.  When the
    call fails no protection changes. *)
Theorem buffer_frame env :
  CInt.in_size_t (instructions env) ->
  executable (boot env) (page_of (instructions env)) = false ->
  let w := snd (run env) in
  let page := page_of (instructions env) in
  mem w = mem (boot env) /\
  buffer_at w (instructions env) 11 = instructions_object /\
  (List.length (prot_changes w) <= 1)%nat /\
  (mprotect_returned env 0 ->
     prot_changes w
       = [(page_base (instructions env), REGION_LEN, requested_prot)] /\
     (forall q, prot w q = if q =? page then requested_prot else prot0 env q) /\
     prot w page <> prot (boot env) page /\
     executable w page = true) /\
  (forall r, mprotect_returned env r -> r <> 0 ->
     prot_changes w = [] /\ forall q, prot w q = prot0 env q).
Proof.
  intros Ha Hx w page. subst w page.
  assert (Hmem : mem (snd (run env)) = mem (boot env)).
  { destruct (kernel_verdict env) as [e|] eqn:V.
    - now rewrite (run_denied env e V).
    - rewrite (run_granted env V). now destruct (payload_behaviour env). }
  split; [exact Hmem|].
  split.
  { unfold buffer_at. rewrite Hmem. apply boot_buffer. }
  split.
  { destruct (kernel_verdict env) as [e|] eqn:V.
    - rewrite (run_denied env e V). cbn. lia.
    - rewrite (run_granted env V). destruct (payload_behaviour env); cbn; lia. }
  split.
  - intros H. rewrite (run_granted env (succeeded_verdict env H)).
    assert (P : forall t q, prot (granted_world env t) q
                = if q =? page_of (instructions env)
                  then requested_prot else prot0 env q).
    { intros t q. cbn [prot granted_world]. unfold granted_prot.
      now rewrite in_range_page. }
    assert (D : forall t, prot (granted_world env t) (page_of (instructions env))
                          <> prot (boot env) (page_of (instructions env))).
    { intros t E. unfold executable in Hx. rewrite <- E, P, Z.eqb_refl in Hx.
      discriminate Hx. }
    destruct (payload_behaviour env); cbn [snd]; cbn [prot exit_flush];
      (split; [reflexivity|]; split; [apply P|]; split; [apply D|]);
      unfold executable; cbn [prot exit_flush]; rewrite P, Z.eqb_refl;
      reflexivity.
  - intros r H Hr. destruct (failed_verdict env r H Hr) as [e V].
    rewrite (run_denied env e V). split; reflexivity.
Qed.

Lemma buffer_frame_witness :
  CInt.in_size_t (instructions Sample.granting) /\
  executable (boot Sample.granting) (page_of (instructions Sample.granting))
    = false /\
  (let w := snd (run Sample.granting) in
   let page := page_of (instructions Sample.granting) in
   mem w = mem (boot Sample.granting) /\
   buffer_at w (instructions Sample.granting) 11 = instructions_object /\
   (List.length (prot_changes w) <= 1)%nat /\
   (mprotect_returned Sample.granting 0 ->
      prot_changes w
        = [(page_base (instructions Sample.granting), REGION_LEN,
            requested_prot)] /\
      (forall q, prot w q
                 = if q =? page then requested_prot
                   else prot0 Sample.granting q) /\
      prot w page <> prot (boot Sample.granting) page /\
      executable w page = true) /\
   (forall r, mprotect_returned Sample.granting r -> r <> 0 ->
      prot_changes w = [] /\ forall q, prot w q = prot0 Sample.granting q)).
Proof.
  assert (A : CInt.in_size_t (instructions Sample.granting)).
  { unfold CInt.in_size_t. vm_compute. split; [discriminate | reflexivity]. }
  assert (X : executable (boot Sample.granting)
                (page_of (instructions Sample.granting)) = false)
    by reflexivity.
  split; [exact A|]. split; [exact X|].
  exact (buffer_frame Sample.granting A X).
Defined.

(** ** The request to the kernel *)

(** C10.  Every run makes one [mprotect] call; its address is a multiple of
    4096 and its length is 0x1000, one page.  The kernel's alignment check
    therefore never fires: the verdict is the one of its policy. *)
Theorem mprotect_argument_aligned env :
  exists r,
    mprotect_calls (snd (run env))
      = [(page_base (instructions env), REGION_LEN, requested_prot, r)] /\
    page_base (instructions env) mod PAGE_SIZE = 0 /\
    REGION_LEN = 0x1000 /\ REGION_LEN = PAGE_SIZE /\
    kernel_verdict env
      = mprotect_policy env (page_base (instructions env)) REGION_LEN
                        requested_prot.
Proof.
  assert (V : kernel_verdict env
      = mprotect_policy env (page_base (instructions env)) REGION_LEN
                        requested_prot).
  { unfold kernel_verdict, mprotect_check. now rewrite page_base_aligned. }
  destruct (kernel_verdict env) as [e|] eqn:K.
  - exists (-1). rewrite (run_denied env e K).
    repeat split; try apply page_base_aligned; exact V.
  - exists 0. rewrite (run_granted env K).
    destruct (payload_behaviour env);
      repeat split; try apply page_base_aligned; exact V.
Qed.

(** ** The payload on the processor *)

Lemma boot_holds_payload env : holds_payload (mem (boot env)) (instructions env).
Proof.
  intros k Hk. change (List.length instructions_bytes) with 10%nat in Hk.
  rewrite boot_mem_at by (cbn; lia).
  rewrite Nat2Z.id.
  do 10 (destruct k as [|k]; [reflexivity|]). lia.
Qed.

Lemma exec_step fuel p m r pc :
  X86.exec (S fuel) p m r pc =
    if negb (X86.fetchable p pc) then Some (Ends (Killed X86.SIGSEGV))
    else
      match X86.decode m pc with
      | None => None
      | Some (i, n) =>
          if negb (X86.fetchable p (pc + n - 1))
          then Some (Ends (Killed X86.SIGSEGV))
          else
            match X86.step i r with
            | inl r' => X86.exec fuel p m r' (pc + n)
            | inr b => b
            end
      end.
Proof. reflexivity. Qed.

Lemma payload_fetch m f (k : nat) (a : Z) :
  holds_payload m f -> a = f + Z.of_nat k -> (k < 10)%nat ->
  X86.fetch m a = Z.of_N (Byte.to_N (nth k instructions_bytes x00)).
Proof. intros H -> Hk. unfold X86.fetch. now rewrite H. Qed.

Ltac fetch_payload m f H k a :=
  rewrite (payload_fetch m f k a H) by lia.

(** [xor rdi, rdi] *)
Lemma payload_decode_0 m f :
  holds_payload m f -> X86.decode m f = Some (X86.XorRR X86.RDI X86.RDI, 3).
Proof.
  intros H. unfold X86.decode.
  fetch_payload m f H 0%nat f.
  fetch_payload m f H 1%nat (f + 1).
  fetch_payload m f H 2%nat (f + 2).
  reflexivity.
Qed.

(** [mov eax, 60] *)
Lemma payload_decode_3 m f :
  holds_payload m f ->
  X86.decode m (f + 3) = Some (X86.MovImm32 X86.RAX X86.SYS_exit, 5).
Proof.
  intros H. unfold X86.decode, X86.le32.
  fetch_payload m f H 3%nat (f + 3).
  fetch_payload m f H 4%nat (f + 3 + 1).
  fetch_payload m f H 5%nat (f + 3 + 1 + 1).
  fetch_payload m f H 6%nat (f + 3 + 1 + 2).
  fetch_payload m f H 7%nat (f + 3 + 1 + 3).
  reflexivity.
Qed.

(** [syscall] *)
Lemma payload_decode_8 m f :
  holds_payload m f -> X86.decode m (f + 3 + 5) = Some (X86.Syscall, 2).
Proof.
  intros H. unfold X86.decode.
  fetch_payload m f H 8%nat (f + 3 + 5).
  fetch_payload m f H 9%nat (f + 3 + 5 + 1).
  reflexivity.
Qed.

(** An address [j] bytes on lies in the same page, or in the next. *)
Lemma page_of_within (f j : Z) :
  0 <= j -> f mod PAGE_SIZE + j < PAGE_SIZE -> page_of (f + j) = page_of f.
Proof.
  intros Hj Hs. unfold page_of.
  pose proof (Z.div_mod f PAGE_SIZE ltac:(discriminate)) as D.
  pose proof (Z.mod_pos_bound f PAGE_SIZE ltac:(reflexivity)) as M.
  symmetry. apply (Z.div_unique _ _ _ (f mod PAGE_SIZE + j)); lia.
Qed.

Lemma page_of_next (f j : Z) :
  PAGE_SIZE <= f mod PAGE_SIZE + j < 2 * PAGE_SIZE ->
  page_of (f + j) = page_of f + 1.
Proof.
  intros Hs. unfold page_of.
  pose proof (Z.div_mod f PAGE_SIZE ltac:(discriminate)) as D.
  symmetry. apply (Z.div_unique _ _ _ (f mod PAGE_SIZE + j - PAGE_SIZE)); lia.
Qed.

Section PayloadOnX86.

Variables (p : Z -> Z) (m : Z -> byte) (f : Z) (r : X86.regs).
Hypothesis H : holds_payload m f.

(** The first [k] bytes of the buffer lie in executable pages, the others do
    not. *)
Variable k : Z.
Hypothesis Xlow : forall j, 0 <= j < k -> X86.fetchable p (f + j) = true.
Hypothesis Xhigh : forall j, k <= j < 10 -> X86.fetchable p (f + j) = false.

Lemma fetchable_low (a j : Z) :
  a = f + j -> 0 <= j < k -> X86.fetchable p a = true.
Proof. intros ->. apply Xlow. Qed.

Lemma fetchable_high (a j : Z) :
  a = f + j -> k <= j < 10 -> X86.fetchable p a = false.
Proof. intros ->. apply Xhigh. Qed.

(** Whatever the registers hold on entry, the ten bytes end the process with
    status 0 when all of them can be fetched. *)
Lemma payload_exits_0 : 10 <= k -> X86.run r p m f = Ends (Exit 0).
Proof.
  intros K. unfold X86.run.
  rewrite exec_step, (fetchable_low f 0), (payload_decode_0 m f H),
    (fetchable_low (f + 3 - 1) 2) by lia.
  cbn [negb X86.step].
  rewrite exec_step, (fetchable_low (f + 3) 3), (payload_decode_3 m f H),
    (fetchable_low (f + 3 + 5 - 1) 7) by lia.
  cbn [negb X86.step].
  rewrite exec_step, (fetchable_low (f + 3 + 5) 8), (payload_decode_8 m f H),
    (fetchable_low (f + 3 + 5 + 2 - 1) 9) by lia.
  cbn [negb X86.step].
  unfold X86.set. cbn [Z.eqb X86.RAX X86.RDI X86.SYS_exit Pos.eqb].
  rewrite Z.lxor_nilpotent. reflexivity.
Qed.

(** The fetch of [a], from what is known of the pages. *)
Ltac fetch_at a j :=
  first [ rewrite (fetchable_low a j) by lia
        | rewrite (fetchable_high a j) by lia ];
  cbn [negb X86.step].

(** When a byte of the buffer cannot be fetched the run ends in a page
    fault, before the system call is reached. *)
Lemma payload_faults :
  1 <= k <= 9 -> X86.run r p m f = Ends (Killed X86.SIGSEGV).
Proof.
  intros K. unfold X86.run.
  rewrite exec_step. fetch_at f 0.
  rewrite (payload_decode_0 m f H). 
  destruct (Z_le_gt_dec k 2) as [K2|K2].
  { fetch_at (f + 3 - 1) 2. reflexivity. }
  fetch_at (f + 3 - 1) 2.
  rewrite exec_step.
  destruct (Z_le_gt_dec k 3) as [K3|K3].
  { fetch_at (f + 3) 3. reflexivity. }
  fetch_at (f + 3) 3.
  rewrite (payload_decode_3 m f H).
  destruct (Z_le_gt_dec k 7) as [K7|K7].
  { fetch_at (f + 3 + 5 - 1) 7. reflexivity. }
  fetch_at (f + 3 + 5 - 1) 7.
  rewrite exec_step.
  destruct (Z_le_gt_dec k 8) as [K8|K8].
  { fetch_at (f + 3 + 5) 8. reflexivity. }
  fetch_at (f + 3 + 5) 8.
  rewrite (payload_decode_8 m f H).
  fetch_at (f + 3 + 5 + 2 - 1) 9. reflexivity.
Qed.

End PayloadOnX86.

(** After the grant the page of the buffer can be fetched from. *)
Lemma granted_fetchable env (j : Z) :
  CInt.in_size_t (instructions env) ->
  0 <= j -> instructions env mod PAGE_SIZE + j < PAGE_SIZE ->
  X86.fetchable (granted_prot env) (instructions env + j) = true.
Proof.
  intros Ha Hj Hs. unfold X86.fetchable, granted_prot.
  rewrite page_of_within, in_range_page, Z.eqb_refl by assumption.
  reflexivity.
Qed.

(** The page after it is as the loader left it. *)
Lemma next_page_fetchable env (j : Z) :
  CInt.in_size_t (instructions env) ->
  PAGE_SIZE <= instructions env mod PAGE_SIZE + j < 2 * PAGE_SIZE ->
  X86.fetchable (granted_prot env) (instructions env + j)
  = executable (boot env) (page_of (instructions env) + 1).
Proof.
  intros Ha Hs. unfold X86.fetchable, granted_prot, executable.
  rewrite page_of_next, in_range_page by assumption.
  destruct (page_of (instructions env) + 1 =? page_of (instructions env)) eqn:E;
    [lia | reflexivity].
Qed.

(** X10.  Run by the x86-64 fragment after the kernel granted the request,
    the ten bytes end the process with status 0, whatever the registers hold
    on entry, when the buffer lies within one page. *)
Theorem x86_payload_behaviour env (r : X86.regs) :
  cpu env = X86.run r ->
  CInt.in_size_t (instructions env) ->
  instructions env mod PAGE_SIZE <= PAGE_SIZE - PAYLOAD_LEN ->
  payload_behaviour env = Ends (Exit 0).
Proof.
  intros C Ha Hs. unfold payload_behaviour. rewrite C.
  apply (payload_exits_0 _ _ _ _ (boot_holds_payload env) 10); [|lia].
  intros j Hj. apply granted_fetchable; [exact Ha | lia |].
  unfold PAGE_SIZE, PAYLOAD_LEN in *. lia.
Qed.

(** X11.  When the buffer crosses into a page that is not executable, the
    run of the ten bytes ends in a page fault: the process is killed by
    SIGSEGV and the exit system call is never reached. *)
Theorem x86_straddling_faults env (r : X86.regs) :
  cpu env = X86.run r ->
  CInt.in_size_t (instructions env) ->
  PAGE_SIZE - PAYLOAD_LEN < instructions env mod PAGE_SIZE ->
  executable (boot env) (page_of (instructions env) + 1) = false ->
  payload_behaviour env = Ends (Killed X86.SIGSEGV).
Proof.
  intros C Ha Hs Hx. unfold payload_behaviour. rewrite C.
  pose proof (Z.mod_pos_bound (instructions env) PAGE_SIZE ltac:(reflexivity)) as M.
  apply (payload_faults _ _ _ _ (boot_holds_payload env)
           (PAGE_SIZE - instructions env mod PAGE_SIZE)).
  - intros j Hj. apply granted_fetchable; [exact Ha | lia | lia].
  - intros j Hj. rewrite next_page_fetchable; [exact Hx | exact Ha |].
    unfold PAGE_SIZE, PAYLOAD_LEN in *. lia.
  - unfold PAGE_SIZE, PAYLOAD_LEN in *. lia.
Qed.

(** * Further properties of the code *)

(** ** The mask *)

(** The masked value is a 64-bit address, at least a page below the top of
    the address space, whatever the pointer. *)
Lemma page_base_in_size_t (a : Z) :
  CInt.in_size_t (page_base a) /\ page_base a + REGION_LEN <= CInt.SIZE_MAX1.
Proof.
  rewrite page_base_div.
  assert (H : 0 <= CInt.to_size_t a < CInt.SIZE_MAX1)
    by (apply Z.mod_pos_bound; reflexivity).
  pose proof (Z.mul_div_le (CInt.to_size_t a) PAGE_SIZE ltac:(reflexivity)) as L.
  assert (Q : 0 <= CInt.to_size_t a / PAGE_SIZE) by (apply Z.div_pos; [lia | reflexivity]).
  assert (U : CInt.to_size_t a / PAGE_SIZE < 2 ^ 52).
  { apply Z.div_lt_upper_bound; [reflexivity|].
    change (PAGE_SIZE * 2 ^ 52) with CInt.SIZE_MAX1. lia. }
  unfold CInt.in_size_t.
  change CInt.SIZE_MAX1 with (PAGE_SIZE * 2 ^ 52) in *.
  change REGION_LEN with PAGE_SIZE. unfold PAGE_SIZE in *. lia.
Qed.

(** X1.  Masking twice is masking once, and the mask leaves an address as it
    is exactly when the address is already a multiple of 4096. *)
Theorem page_base_idempotent (a : Z) :
  CInt.in_size_t a ->
  page_base (page_base a) = page_base a /\
  (page_base a = a <-> a mod PAGE_SIZE = 0).
Proof.
  intros Ha. split.
  - apply Z.bits_inj'. intros i Hi.
    rewrite (page_base_bits (page_base a)) by exact Hi.
    rewrite to_size_t_id by apply page_base_in_size_t.
    rewrite page_base_bits by exact Hi.
    now rewrite <- andb_assoc, andb_diag.
  - rewrite page_base_sub by exact Ha. lia.
Qed.

Lemma page_base_idempotent_witness :
  CInt.in_size_t 0x402004 /\
  page_base (page_base 0x402004) = page_base 0x402004 /\
  (page_base 0x402004 = 0x402004 <-> 0x402004 mod PAGE_SIZE = 0).
Proof.
  assert (H : CInt.in_size_t 0x402004).
  { unfold CInt.in_size_t. vm_compute. split; [discriminate | reflexivity]. }
  split; [exact H | exact (page_base_idempotent 0x402004 H)].
Defined.

(** X2.  The mask is monotone, and two addresses get the same base exactly
    when they lie in the same page. *)
Theorem same_page_same_base (a b : Z) :
  CInt.in_size_t a -> CInt.in_size_t b ->
  (a <= b -> page_base a <= page_base b) /\
  (page_base a = page_base b <-> page_of a = page_of b).
Proof.
  intros Ha Hb. rewrite !page_base_div, !to_size_t_id by assumption.
  unfold page_of. split.
  - intros L. pose proof (Z.div_le_mono a b PAGE_SIZE ltac:(reflexivity) L).
    unfold PAGE_SIZE in *. lia.
  - unfold PAGE_SIZE. lia.
Qed.

Lemma same_page_same_base_witness :
  CInt.in_size_t 0x402004 /\ CInt.in_size_t 0x402FFA /\
  (0x402004 <= 0x402FFA -> page_base 0x402004 <= page_base 0x402FFA) /\
  (page_base 0x402004 = page_base 0x402FFA <-> page_of 0x402004 = page_of 0x402FFA).
Proof.
  assert (Ha : CInt.in_size_t 0x402004).
  { unfold CInt.in_size_t. vm_compute. split; [discriminate | reflexivity]. }
  assert (Hb : CInt.in_size_t 0x402FFA).
  { unfold CInt.in_size_t. vm_compute. split; [discriminate | reflexivity]. }
  split; [exact Ha|]. split; [exact Hb|].
  exact (same_page_same_base 0x402004 0x402FFA Ha Hb).
Defined.

(** ** Every run *)

(** The three ways a run can go: refused, granted and back from the buffer,
    granted and ended by the buffer. *)
Lemma run_cases env :
  (exists e, kernel_verdict env = Some e /\
     run env = (Exit 1, exit_flush (denied_world env e))) \/
  (kernel_verdict env = None /\ payload_behaviour env = Returns /\
     run env = (Exit 0, exit_flush (granted_world env [Printed line_after]))) \/
  (exists o, kernel_verdict env = None /\ payload_behaviour env = Ends o /\
     run env = (o, granted_world env [])).
Proof.
  destruct (kernel_verdict env) as [e|] eqn:V.
  - left. exists e. split; [reflexivity | exact (run_denied env e V)].
  - right. pose proof (run_granted env V) as R.
    destruct (payload_behaviour env) as [|o].
    + left. repeat split. exact R.
    + right. exists o. repeat split. exact R.
Qed.

(** Splits a goal about [run env] along the three ways a run can go. *)
Ltac by_run_cases env :=
  destruct (run_cases env) as [(?e & ?V & ?R)|[(?V & ?B & ?R)|(?o & ?V & ?B & ?R)]];
  rewrite R.

(** X3.  The range handed to [mprotect] lies inside the 64-bit address space
    in every run: its start is not negative, its length is positive and its
    end does not pass 2^64, wherever the buffer is. *)
Theorem request_within_address_space env :
  Forall (fun c => match c with
                   | (a, l, _, _) => 0 <= a /\ 0 < l /\ a + l <= CInt.SIZE_MAX1
                   end)
         (mprotect_calls (snd (run env))).
Proof.
  destruct (page_base_in_size_t (instructions env)) as [[L _] U].
  by_run_cases env; cbn; repeat constructor; assumption.
Qed.

(** X4.  Whatever the kernel and the buffer do, a run starts the same way:
    the four lines, then the one [mprotect] call; the address shown in the
    "Page start" line is the address of that call, and no second call to
    [mprotect] follows. *)
Theorem every_run_starts_alike env :
  exists a r rest,
    trace (snd (run env)) =
      [Printed (line_main env); Printed (line_instructions env);
       Printed ("Page start: " ++ show_ptr env a ++ nl)%string;
       Printed line_making; Mprotect a REGION_LEN requested_prot r] ++ rest /\
    a = page_base (instructions env) /\
    Forall (fun e => match e with Mprotect _ _ _ _ => False | _ => True end) rest.
Proof.
  exists (page_base (instructions env)).
  by_run_cases env.
  - exists (-1), [Printed (line_failed env e)]. repeat split. repeat constructor.
  - exists 0, [Printed line_jumping; Called (instructions env); Printed line_after].
    repeat split. repeat constructor.
  - exists 0, [Printed line_jumping; Called (instructions env)].
    repeat split. repeat constructor.
Qed.

(** X9.  Every text the program hands to [printf] ends with a line feed,
    whatever the renderings of [%p] and of the error. *)
Theorem every_text_ends_in_line_feed env :
  forallb ends_with_nl (printed (snd (run env))) = true.
Proof.
  assert (L1 := ends_with_nl_line "main @ " (show_ptr env (main_addr env))).
  assert (L2 := ends_with_nl_line "instructions @ "
                  (show_ptr env (instructions env))).
  assert (L3 := ends_with_nl_line "Page start: "
                  (show_ptr env (page_base (instructions env)))).
  fold (line_main env) in L1. fold (line_instructions env) in L2.
  fold (line_page env) in L3.
  by_run_cases env; unfold printed;
    cbn [snd trace exit_flush granted_world denied_world prologue app
         flat_map forallb].
  - pose proof (ends_with_nl_line "mprotect failed: error " (strerror env e)) as L5.
    fold (line_failed env e) in L5.
    rewrite L1, L2, L3, L5. reflexivity.
  - rewrite L1, L2, L3. reflexivity.
  - rewrite L1, L2, L3. reflexivity.
Qed.

(** X8.  No run makes a page writable: after a run a page has the
    protection it started with, or it is read+execute and not writable. *)
Theorem no_page_becomes_writable env (q : Z) :
  let w := snd (run env) in
  prot w q = prot0 env q \/
  (prot w q = Z.lor PROT_READ PROT_EXEC /\ writable w q = false /\
   executable w q = true).
Proof.
  cbv zeta.
  assert (G : forall t,
    prot (granted_world env t) q = prot0 env q \/
    (prot (granted_world env t) q = Z.lor PROT_READ PROT_EXEC /\
     writable (granted_world env t) q = false /\
     executable (granted_world env t) q = true)).
  { intros t. unfold writable, executable. cbn [prot granted_world].
    unfold granted_prot.
    destruct (in_range (page_base (instructions env)) REGION_LEN q).
    - right. repeat split.
    - left. reflexivity. }
  by_run_cases env; cbn [snd]; unfold writable, executable;
    cbn [prot exit_flush].
  - left. reflexivity.
  - apply G.
  - apply G.
Qed.

(** ** The failure path, whole *)

(** X5.  When the call fails it returned -1, the errno left behind is the
    kernel's, and the run consists of the four opening lines, the refused
    call and the error line: five texts handed to [printf], which are what
    standard output has received when the process has exited. *)
Theorem failed_run_trace env r :
  mprotect_returned env r -> r <> 0 ->
  let w := snd (run env) in
  r = -1 /\
  kernel_verdict env = Some (errno w) /\
  trace w =
    [Printed (line_main env); Printed (line_instructions env);
     Printed (line_page env); Printed line_making;
     Mprotect (page_base (instructions env)) REGION_LEN requested_prot (-1);
     Printed (line_failed env (errno w))] /\
  printed w =
    [line_main env; line_instructions env; line_page env; line_making;
     line_failed env (errno w)] /\
  stdout w = (line_main env ++ line_instructions env ++ line_page env
              ++ line_making ++ line_failed env (errno w))%string.
Proof.
  intros H Hr w. subst w.
  destruct (mprotect_returned_inv env r H) as [[-> _]|[-> [e V]]];
    [contradiction|].
  rewrite (run_denied env e V). cbn [snd].
  split; [reflexivity|]. split; [exact V|]. split; [reflexivity|].
  split; [reflexivity | apply stdout_denied].
Qed.

Lemma failed_run_trace_witness :
  mprotect_returned Sample.denying (-1) /\ -1 <> 0 /\
  (let w := snd (run Sample.denying) in
   -1 = -1 /\
   kernel_verdict Sample.denying = Some (errno w) /\
   trace w =
     [Printed (line_main Sample.denying);
      Printed (line_instructions Sample.denying);
      Printed (line_page Sample.denying); Printed line_making;
      Mprotect (page_base (instructions Sample.denying)) REGION_LEN
               requested_prot (-1);
      Printed (line_failed Sample.denying (errno w))] /\
   printed w =
     [line_main Sample.denying; line_instructions Sample.denying;
      line_page Sample.denying; line_making;
      line_failed Sample.denying (errno w)] /\
   stdout w = (line_main Sample.denying ++ line_instructions Sample.denying
               ++ line_page Sample.denying ++ line_making
               ++ line_failed Sample.denying (errno w))%string).
Proof.
  assert (N : -1 <> 0) by discriminate.
  split; [exact denying_returns|]. split; [exact N|].
  exact (failed_run_trace Sample.denying (-1) denying_returns N).
Defined.

(** ** A buffer that ends the process *)

Lemma faulting_returns : mprotect_returned Edge.faulting 0.
Proof.
  exists 0x402000, 0x1000, 5. vm_compute.
  right. right. right. right. left. reflexivity.
Defined.

Lemma straddling_returns : mprotect_returned Edge.straddling 0.
Proof.
  exists 0x402000, 0x1000, 5. vm_compute.
  right. right. right. right. left. reflexivity.
Defined.

(** X6.  When the buffer ends the process, in whatever way, that is how the
    process ends: the invocation is the last thing the program did and
    "after jump" is not handed to [printf]. *)
Theorem payload_outcome_is_process_outcome env o :
  mprotect_returned env 0 ->
  payload_behaviour env = Ends o ->
  let w := snd (run env) in
  fst (run env) = o /\
  last (trace w) (Called 0) = Called (instructions env) /\
  ~ In line_after (printed w).
Proof.
  intros H B w. subst w.
  rewrite (run_granted env (succeeded_verdict env H)), B.
  repeat split. cbn. intros Hin.
  repeat (destruct Hin as [Hin|Hin]; [discriminate Hin|]). exact Hin.
Qed.

Lemma payload_outcome_is_process_outcome_witness :
  mprotect_returned Edge.faulting 0 /\
  payload_behaviour Edge.faulting = Ends (Killed Edge.SIGSEGV) /\
  (let w := snd (run Edge.faulting) in
   fst (run Edge.faulting) = Killed Edge.SIGSEGV /\
   last (trace w) (Called 0) = Called (instructions Edge.faulting) /\
   ~ In line_after (printed w)).
Proof.
  split; [exact faulting_returns|]. split; [reflexivity|].
  exact (payload_outcome_is_process_outcome Edge.faulting
           (Killed Edge.SIGSEGV) faulting_returns eq_refl).
Defined.

(** X12.  When the buffer was invoked and comes back, standard output has
    received all six lines when the process has exited, whatever the
    buffering: the return from [main] flushes the stream. *)
Theorem returned_run_output env :
  In (Called (instructions env)) (trace (snd (run env))) ->
  payload_behaviour env = Returns ->
  let w := snd (run env) in
  printed w =
    [line_main env; line_instructions env; line_page env; line_making;
     line_jumping; line_after] /\
  stdout w = (five_lines env ++ line_after)%string /\
  pending (out w) = EmptyString.
Proof.
  intros H Hb w. subst w.
  rewrite (run_granted env (called_verdict env _ H)), Hb. cbn [snd].
  split; [reflexivity|]. split; [apply stdout_returned | reflexivity].
Qed.

Lemma returned_run_output_witness :
  In (Called (instructions Sample.returning))
     (trace (snd (run Sample.returning))) /\
  payload_behaviour Sample.returning = Returns /\
  (let w := snd (run Sample.returning) in
   printed w =
     [line_main Sample.returning; line_instructions Sample.returning;
      line_page Sample.returning; line_making; line_jumping; line_after] /\
   stdout w = (five_lines Sample.returning ++ line_after)%string /\
   pending (out w) = EmptyString).
Proof.
  assert (C : In (Called (instructions Sample.returning))
                 (trace (snd (run Sample.returning)))).
  { vm_compute. do 6 right. left. reflexivity. }
  split; [exact C|]. split; [reflexivity|].
  exact (returned_run_output Sample.returning C eq_refl).
Defined.

(** X7.  When the buffer starts in the last nine bytes of a page, its last
    byte lies in the next page, and a successful run leaves that page with
    the protection it was loaded with. *)
Theorem straddling_tail_stays_as_loaded env :
  CInt.in_size_t (instructions env) ->
  mprotect_returned env 0 ->
  PAGE_SIZE - PAYLOAD_LEN < instructions env mod PAGE_SIZE ->
  let w := snd (run env) in
  let tail := page_of (instructions env + PAYLOAD_LEN - 1) in
  tail = page_of (instructions env) + 1 /\
  prot w tail = prot0 env tail /\
  executable w tail = executable (boot env) tail.
Proof.
  intros Ha H Hs w tail. subst w tail.
  assert (T : page_of (instructions env + PAYLOAD_LEN - 1)
              = page_of (instructions env) + 1).
  { unfold page_of.
    pose proof (Z.div_mod (instructions env) PAGE_SIZE ltac:(discriminate)) as D.
    pose proof (Z.mod_pos_bound (instructions env) PAGE_SIZE ltac:(reflexivity)) as M.
    symmetry. apply (Z.div_unique _ _ _
      (instructions env mod PAGE_SIZE + PAYLOAD_LEN - 1 - PAGE_SIZE)).
    - unfold PAGE_SIZE, PAYLOAD_LEN in *. lia.
    - unfold PAGE_SIZE, PAYLOAD_LEN in *. lia. }
  split; [exact T|].
  assert (P : prot (snd (run env)) (page_of (instructions env + PAYLOAD_LEN - 1))
              = prot0 env (page_of (instructions env + PAYLOAD_LEN - 1))).
  { rewrite (run_granted env (succeeded_verdict env H)).
    destruct (payload_behaviour env); cbn [snd prot exit_flush granted_world];
      unfold granted_prot; rewrite in_range_page, T by exact Ha;
      (destruct (page_of (instructions env) + 1 =? page_of (instructions env)) eqn:E;
       [lia | reflexivity]). }
  split; [exact P|].
  unfold executable. rewrite P. reflexivity.
Qed.

Lemma straddling_tail_stays_as_loaded_witness :
  CInt.in_size_t (instructions Edge.straddling) /\
  mprotect_returned Edge.straddling 0 /\
  PAGE_SIZE - PAYLOAD_LEN < instructions Edge.straddling mod PAGE_SIZE /\
  (let w := snd (run Edge.straddling) in
   let tail := page_of (instructions Edge.straddling + PAYLOAD_LEN - 1) in
   tail = page_of (instructions Edge.straddling) + 1 /\
   prot w tail = prot0 Edge.straddling tail /\
   executable w tail = executable (boot Edge.straddling) tail).
Proof.
  assert (A : CInt.in_size_t (instructions Edge.straddling)).
  { unfold CInt.in_size_t. vm_compute. split; [discriminate | reflexivity]. }
  assert (S : PAGE_SIZE - PAYLOAD_LEN < instructions Edge.straddling mod PAGE_SIZE)
    by reflexivity.
  split; [exact A|]. split; [exact straddling_returns|]. split; [exact S|].
  exact (straddling_tail_stays_as_loaded Edge.straddling A straddling_returns S).
Defined.

Lemma x86_payload_behaviour_witness :
  cpu Sample.granting = X86.run (fun _ => 0) /\
  CInt.in_size_t (instructions Sample.granting) /\
  instructions Sample.granting mod PAGE_SIZE <= PAGE_SIZE - PAYLOAD_LEN /\
  payload_behaviour Sample.granting = Ends (Exit 0).
Proof.
  assert (C : cpu Sample.granting = X86.run (fun _ => 0)) by reflexivity.
  assert (A : CInt.in_size_t (instructions Sample.granting)).
  { unfold CInt.in_size_t. vm_compute. split; [discriminate | reflexivity]. }
  assert (S : instructions Sample.granting mod PAGE_SIZE
              <= PAGE_SIZE - PAYLOAD_LEN)
    by (vm_compute; discriminate).
  split; [exact C|]. split; [exact A|]. split; [exact S|].
  exact (x86_payload_behaviour Sample.granting (fun _ => 0) C A S).
Defined.

Lemma x86_straddling_faults_witness :
  cpu Edge.straddling = X86.run (fun _ => 0) /\
  CInt.in_size_t (instructions Edge.straddling) /\
  PAGE_SIZE - PAYLOAD_LEN < instructions Edge.straddling mod PAGE_SIZE /\
  executable (boot Edge.straddling)
             (page_of (instructions Edge.straddling) + 1) = false /\
  payload_behaviour Edge.straddling = Ends (Killed X86.SIGSEGV).
Proof.
  assert (C : cpu Edge.straddling = X86.run (fun _ => 0)) by reflexivity.
  assert (A : CInt.in_size_t (instructions Edge.straddling)).
  { unfold CInt.in_size_t. vm_compute. split; [discriminate | reflexivity]. }
  assert (S : PAGE_SIZE - PAYLOAD_LEN
              < instructions Edge.straddling mod PAGE_SIZE)
    by reflexivity.
  assert (X : executable (boot Edge.straddling)
                (page_of (instructions Edge.straddling) + 1) = false)
    by reflexivity.
  split; [exact C|]. split; [exact A|]. split; [exact S|]. split; [exact X|].
  exact (x86_straddling_faults Edge.straddling (fun _ => 0) C A S X).
Defined.
